(** * Attendance report generator: a shallow embedding of [code.py]

    The development follows [AttendanceReportGenerator]: the preprocessed
    data frame [self.df] is a list of rows, [generate_monthly_report] builds
    the day-by-day detail grid of a month, [generate_summary_report] the
    per-employee statistics and [generate_reports] writes both for every
    selected month.  The calendar, the timestamps, the string operations and
    the float arithmetic the script takes from Python and pandas are modelled
    first. *)

From Stdlib Require Import ZArith String Ascii.
From Stdlib Require Import PrimFloat FloatOps SpecFloat Uint63.
From stdpp Require Import gmap strings list sorting pretty.

#[local] Open Scope Z_scope.

(** ** The calendar of [datetime] *)

Module Calendar.

(** A [datetime.date], as (year, month, day). *)
Definition Date : Type := Z * Z * Z.

Definition year (d : Date) : Z := d.1.1.
Definition month (d : Date) : Z := d.1.2.
Definition day (d : Date) : Z := d.2.

Definition is_leap (y : Z) : bool :=
  (y mod 4 =? 0) && (negb (y mod 100 =? 0) || (y mod 400 =? 0)).

Definition days_in_month (y m : Z) : Z :=
  if m =? 2 then (if is_leap y then 29 else 28)
  else if (m =? 4) || (m =? 6) || (m =? 9) || (m =? 11) then 30
  else 31.

(** Days before January 1st of year [y] in the proleptic Gregorian
    calendar. *)
Definition days_before_year (y : Z) : Z :=
  let p := y - 1 in p * 365 + p / 4 - p / 100 + p / 400.

(** Days of year [y] before the first day of month [m]. *)
Definition days_before_month (y m : Z) : Z :=
  nth (Z.to_nat m) [0; 0; 31; 59; 90; 120; 151; 181; 212; 243; 273; 304; 334] 0
  + (if (2 <? m) && is_leap y then 1 else 0).

(** [date.toordinal()]; a difference of two dates is the difference of
    their ordinals, in days. *)
Definition toordinal (d : Date) : Z :=
  days_before_year (year d) + days_before_month (year d) (month d) + day d.

Definition valid_date (d : Date) : bool :=
  (1 <=? year d) && (1 <=? month d) && (month d <=? 12)
  && (1 <=? day d) && (day d <=? days_in_month (year d) (month d)).

(** [d + timedelta(days=1)] and [d - timedelta(days=1)]. *)
Definition next_day (d : Date) : Date :=
  let '(y, m, dd) := d in
  if dd <? days_in_month y m then (y, m, dd + 1)
  else if m <? 12 then (y, m + 1, 1)
  else (y + 1, 1, 1).

Definition prev_day (d : Date) : Date :=
  let '(y, m, dd) := d in
  if 1 <? dd then (y, m, dd - 1)
  else if 1 <? m then (y, m - 1, days_in_month y (m - 1))
  else (y - 1, 12, 31).

(** [d + timedelta(days=n)] for a count [n] of days. *)
Definition add_days (d : Date) (n : nat) : Date := Nat.iter n next_day d.

(** [pd.date_range(start=s, end=e, freq='D')]: the days [s], [s + 1 day],
    ... up to [e]; there are [(e - s).days + 1] of them, none when [e] is
    before [s]. *)
Definition date_range (s e : Date) : list Date :=
  add_days s <$> seq 0 (Z.to_nat (toordinal e - toordinal s + 1)).

End Calendar.

Import Calendar.

(** ** Timestamps *)

(** A [pd.Timestamp]: the calendar date and the time of day, in nanoseconds
    since midnight. *)
Record Timestamp := mkTimestamp { ts_date : Date; ts_ns : Z }.

#[global] Instance Timestamp_eq_dec : EqDecision Timestamp.
Proof. solve_decision. Defined.

Definition ns_per_second : Z := 1000000000.
Definition ns_per_minute : Z := 60 * ns_per_second.
Definition ns_per_hour : Z := 60 * ns_per_minute.
Definition ns_per_day : Z := 24 * ns_per_hour.

Definition hour (t : Timestamp) : Z := ts_ns t / ns_per_hour.
Definition minute (t : Timestamp) : Z := (ts_ns t / ns_per_minute) mod 60.

(** The timestamp of day [d] at [h]:[m]:[s]. *)
Definition at_time (d : Date) (h m s : Z) : Timestamp :=
  mkTimestamp d (((h * 60 + m) * 60 + s) * ns_per_second).

Definition valid_ts (t : Timestamp) : bool :=
  valid_date (ts_date t) && (0 <=? ts_ns t) && (ts_ns t <? ns_per_day).

(** Chronological order: by year, month, day, then time of day. *)
Definition ts_key (t : Timestamp) : list Z :=
  [year (ts_date t); month (ts_date t); day (ts_date t); ts_ns t].

Fixpoint lex_leb (k1 k2 : list Z) : bool :=
  match k1, k2 with
  | [], _ => true
  | _ :: _, [] => false
  | x :: k1', y :: k2' => (x <? y) || ((x =? y) && lex_leb k1' k2')
  end.

Definition ts_leb (a b : Timestamp) : bool := lex_leb (ts_key a) (ts_key b).

(** [min] and [max] of two timestamps, as the [min()] and [max()]
    reductions of a pandas group take them. *)
Definition ts_min (a b : Timestamp) : Timestamp := if ts_leb a b then a else b.
Definition ts_max (a b : Timestamp) : Timestamp := if ts_leb a b then b else a.

(** ** Strings *)

Definition digit (d : Z) : ascii := ascii_of_N (48 + Z.to_N d).

(** A number printed on two digits ([%d], [%m], [%H], [%M], [:02d]). *)
Definition two_digits (n : Z) : string :=
  String (digit (n / 10)) (String (digit (n mod 10)) "").

(** A year printed on four digits ([%Y]). *)
Definition four_digits (n : Z) : string :=
  two_digits (n / 100) +:+ two_digits (n mod 100).

(** [t.strftime('%H:%M')] *)
Definition strftime_HM (t : Timestamp) : string :=
  two_digits (hour t) +:+ ":" +:+ two_digits (minute t).

(** [d.strftime('%d-%m-%Y')] *)
Definition strftime_dmY (d : Date) : string :=
  two_digits (day d) +:+ "-" +:+ two_digits (month d) +:+ "-" +:+ four_digits (year d).

(** [str.lower()]: the letters A-Z are mapped to a-z.  (Outside ASCII, Python
    also lowers the Kelvin sign to k and the dotted capital I to i followed by
    a combining dot; neither changes whether a label holds "in", "entry",
    "out" or "exit", which decide the two searches below.  Strings are
    sequences of bytes here; for UTF-8 text, searching an ASCII keyword and
    comparing two strings give the same result on bytes as on characters.) *)
Definition lower_ascii (c : ascii) : ascii :=
  let n := N_of_ascii c in
  if ((65 <=? n) && (n <=? 90))%N then ascii_of_N (n + 32) else c.

Fixpoint lower (s : string) : string :=
  match s with
  | EmptyString => EmptyString
  | String c s' => String (lower_ascii c) (lower s')
  end.

(** [pat in s]: [pat] occurs in [s] as a substring. *)
Fixpoint contains (pat s : string) : bool :=
  String.prefix pat s
  || match s with
     | EmptyString => false
     | String _ s' => contains pat s'
     end.

(** [Series.str.contains('|'.join(patterns))]: the regular expression is an
    alternation of literal keywords, so it matches when one of them occurs. *)
Definition contains_any (patterns : list string) (s : string) : bool :=
  existsb (λ pat, contains pat s) patterns.

(** ** Floats *)

(** Python's [float] is an IEEE 754 binary64 number, as is the primitive
    [float] of the kernel.  The functions below cover what the summary needs:
    division and multiplication of small integers, [round(x, ndigits)] and
    the conversion to a string of an f-string. *)
Module PyFloat.

(** [float(z)], exact for [0 <= z < 2^53]. *)
Definition of_Z (z : Z) : float := PrimFloat.of_uint63 (Uint63.of_Z z).

(** The integer nearest to [num / den], ties to even ([0 < den]). *)
Definition round_half_even (num den : Z) : Z :=
  let q := num / den in
  let r := num mod den in
  if 2 * r <? den then q
  else if den <? 2 * r then q + 1
  else if Z.even q then q else q + 1.

(** The integer nearest to [x * 10^k], ties to even, computed on the exact
    binary value of [x]. *)
Definition scaled (x : float) (k : Z) : Z :=
  match Prim2SF x with
  | S754_finite s m e =>
      let n := if 0 <=? e then Z.pos m * 10 ^ k * 2 ^ e
               else round_half_even (Z.pos m * 10 ^ k) (2 ^ (- e)) in
      if s then - n else n
  | _ => 0
  end.

(** The float nearest to the decimal [n / 10^k]. *)
Definition of_decimal (n k : Z) : float :=
  let q := PrimFloat.div (of_Z (Z.abs n)) (of_Z (10 ^ k)) in
  if n <? 0 then PrimFloat.opp q else q.

(** [round(x, ndigits)]: [x] correctly rounded to [ndigits] decimals, as
    a float again. *)
Definition round (x : float) (ndigits : Z) : float :=
  of_decimal (scaled x ndigits) ndigits.

(** [k] decimal digits of [n], the last one being the units. *)
Fixpoint digits (k : nat) (n : Z) : string :=
  match k with
  | O => ""
  | S k' => digits k' (n / 10) +:+ String (digit (n mod 10)) ""
  end.

(** The decimal [n / 10^k] written with [k] digits after the point. *)
Definition fixed (n : Z) (k : nat) : string :=
  (if n <? 0 then "-" else "")
  +:+ pretty (Z.abs n / 10 ^ Z.of_nat k) +:+ "." +:+ digits k (Z.abs n mod 10 ^ Z.of_nat k).

(** [str(x)] (and [f"{x}"]): the shortest decimal that reads back as [x],
    written with at least one digit after the point.  The model covers the
    floats whose shortest decimal has at most 15 digits after the point and
    is printed without an exponent, which includes every value
    [round(_, 2)] returns for a percentage. *)
Definition round_trips (x : float) (k : nat) : bool :=
  PrimFloat.eqb (of_decimal (scaled x (Z.of_nat k)) (Z.of_nat k)) x.

Definition str (x : float) : string :=
  match List.find (round_trips x) (seq 1 15) with
  | Some k => fixed (scaled x (Z.of_nat k)) k
  | None => fixed (scaled x 16) 16
  end.

End PyFloat.

(** ** The data frame *)

(** A row of [self.df] after [preprocess_data]: the employee id (zero-filled
    to eight characters), the employee name, the label column [TR] the
    direction is read from, and the parsed [DateTime].  The other columns of
    the input file are not read by the report functions. *)
Record Row := mkRow {
  EmpID : string;
  EmployeeName : string;
  TR : string;
  DateTime : Timestamp
}.

#[global] Instance Row_eq_dec : EqDecision Row.
Proof. solve_decision. Defined.

(** A month key.  The script carries it as the string ['YYYY-MM'] that
    [strftime('%Y-%m')] writes and [month.split('-')] with [int] reads back;
    here it is the pair (year, month) of that string. *)
Definition MonthKey : Type := Z * Z.

(** The [YearMonth] column. *)
Definition YearMonth (r : Row) : MonthKey :=
  (year (ts_date (DateTime r)), Calendar.month (ts_date (DateTime r))).

(** [DateTime.dt.date] *)
Definition row_date (r : Row) : Date := ts_date (DateTime r).

(** [self.df[self.df['YearMonth'] == month]] *)
Definition month_df (df : list Row) (month : MonthKey) : list Row :=
  filter (λ r, YearMonth r = month) df.

(** [month_df[month_df['EmpID'] == emp_id]] *)
Definition emp_records (month_df : list Row) (emp_id : string) : list Row :=
  filter (λ r, EmpID r = emp_id) month_df.

(** [drop_duplicates()]: the first occurrence of every value is kept. *)
Fixpoint drop_duplicates_from `{EqDecision A} (seen l : list A) : list A :=
  match l with
  | [] => []
  | x :: l' =>
      if decide (x ∈ seen) then drop_duplicates_from seen l'
      else x :: drop_duplicates_from (x :: seen) l'
  end.

Definition drop_duplicates `{EqDecision A} (l : list A) : list A :=
  drop_duplicates_from [] l.

(** [nunique()] *)
Definition nunique `{EqDecision A} (l : list A) : Z :=
  Z.of_nat (length (drop_duplicates l)).

(** The order of [sorted] on the [[EmpID, EmployeeName]] lists: by id, then
    by name, strings being compared character by character. *)
Definition emp_le (a b : string * string) : Prop :=
  if decide (a.1 = b.1) then String.le a.2 b.2 else String.le a.1 b.1.

#[global] Instance emp_le_dec : RelDecision emp_le.
Proof. intros a b. unfold emp_le. destruct (decide (a.1 = b.1)); apply _. Defined.

(** [month_df[['EmpID', 'EmployeeName']]], row by row. *)
Definition id_name (r : Row) : string * string := (EmpID r, EmployeeName r).

(** [sorted(month_df[['EmpID', 'EmployeeName']].drop_duplicates().values.tolist())] *)
Definition employees (month_df : list Row) : list (string * string) :=
  merge_sort emp_le (drop_duplicates (id_name <$> month_df)).

(** The date range of a month: its first day, and the day before the first
    day of the next month (December rolls to January of the next year). *)
Definition start_date (month : MonthKey) : Date := (month.1, month.2, 1).

Definition end_date (month : MonthKey) : Date :=
  if month.2 =? 12 then prev_day (month.1 + 1, 1, 1)
  else prev_day (month.1, month.2 + 1, 1).

Definition all_days (month : MonthKey) : list Date :=
  date_range (start_date month) (end_date month).

(** ** [generate_monthly_report] *)

Definition in_patterns : list string := ["time in"; "in"; "entry"; "check in"].
Definition out_patterns : list string := ["time out"; "out"; "exit"; "check out"].

(** [emp_records[emp_records['TR'].str.lower().str.contains(...)]]: the two
    selections are made independently of each other. *)
Definition df_in (emp_records : list Row) : list Row :=
  filter (λ r, contains_any in_patterns (lower (TR r)) = true) emp_records.

Definition df_out (emp_records : list Row) : list Row :=
  filter (λ r, contains_any out_patterns (lower (TR r)) = true) emp_records.

(** [rows.groupby(rows['DateTime'].dt.date)['DateTime'].agg()]: a series
    indexed by date, holding the reduction of the timestamps of each date by
    [agg] ([min] or [max]). *)
Definition groupby_step (agg : Timestamp → Timestamp → Timestamp)
    (acc : gmap Date Timestamp) (r : Row) : gmap Date Timestamp :=
  <[row_date r :=
      match acc !! row_date r with
      | Some t => agg t (DateTime r)
      | None => DateTime r
      end]> acc.

Definition groupby_date (agg : Timestamp → Timestamp → Timestamp)
    (rows : list Row) : gmap Date Timestamp :=
  foldl (groupby_step agg) ∅ rows.

Definition in_times (emp_records : list Row) : gmap Date Timestamp :=
  groupby_date ts_min (df_in emp_records).

Definition out_times (emp_records : list Row) : gmap Date Timestamp :=
  groupby_date ts_max (df_out emp_records).

(** The formatted time of a day: [strftime('%H:%M')] of the timestamp found
    by [.get(date_key)], ['00:00'] when there is none. *)
Definition time_str (o : option Timestamp) : string :=
  match o with
  | Some t => strftime_HM t
  | None => "00:00"
  end.

(** The status of a day, decided on the two formatted times. *)
Definition status (in_time_str out_time_str : string) : string :=
  if bool_decide (in_time_str ≠ "00:00" ∧ out_time_str ≠ "00:00") then "P"
  else if bool_decide (in_time_str ≠ "00:00" ∨ out_time_str ≠ "00:00") then "E"
  else "A".

(** What the loop over [all_days] stores for one day. *)
Record DayCell := mkDayCell {
  in_time : option Timestamp;
  out_time : option Timestamp;
  in_time_str : string;
  out_time_str : string;
  day_status : string;
  date_str : string
}.

Definition day_cell (in_times out_times : gmap Date Timestamp) (day : Date) : DayCell :=
  let in_time := in_times !! day in
  let out_time := out_times !! day in
  let in_time_str := time_str in_time in
  let out_time_str := time_str out_time in
  mkDayCell in_time out_time in_time_str out_time_str
            (status in_time_str out_time_str) (strftime_dmY day).

(** The grid of one employee: a cell for every day of [all_days]. *)
Definition employee_grid (month_df : list Row) (all_days : list Date)
    (emp_id : string) : list DayCell :=
  let recs := emp_records month_df emp_id in
  day_cell (in_times recs) (out_times recs) <$> all_days.

(** A row of the detail table; [Days] holds the columns [Day_01],
    [Day_02], ... in order. *)
Record ReportRow := mkReportRow {
  Employee_Info : string;
  Detail_Type : string;
  Days : list string
}.

#[global] Instance ReportRow_eq_dec : EqDecision ReportRow.
Proof. solve_decision. Defined.

(** The six rows appended to [report_rows] for one employee. *)
Definition employee_rows (month_df : list Row) (all_days : list Date)
    (emp : string * string) : list ReportRow :=
  let '(emp_id, emp_name) := emp in
  let grid := employee_grid month_df all_days emp_id in
  [ mkReportRow (emp_id +:+ " - " +:+ emp_name) "Header" ((λ _, "") <$> grid);
    mkReportRow "In-Time" "InTime" (in_time_str <$> grid);
    mkReportRow "Out-Time" "OutTime" (out_time_str <$> grid);
    mkReportRow "Status" "Status" (day_status <$> grid);
    mkReportRow "Date" "Date" (date_str <$> grid);
    mkReportRow "" "Separator" ((λ _, "") <$> grid) ].

(** [generate_monthly_report]: [None] when the month has no row, otherwise
    the rows of every employee of the month, in the order of [employees]. *)
Definition generate_monthly_report (df : list Row) (month : MonthKey)
    : option (list ReportRow) :=
  let month_df := month_df df month in
  match month_df with
  | [] => None
  | _ :: _ =>
      Some (employees month_df ≫= employee_rows month_df (all_days month))
  end.

(** ** [generate_summary_report] *)

Record SummaryRow := mkSummaryRow {
  Employee_ID : string;
  Employee_Name : string;
  Total_Working_Days : Z;
  Present_Days : Z;
  Absent_Days : Z;
  Attendance_Percentage : string
}.

#[global] Instance SummaryRow_eq_dec : EqDecision SummaryRow.
Proof. solve_decision. Defined.

(** [(end_date - start_date).days + 1] *)
Definition total_working_days (month : MonthKey) : Z :=
  toordinal (end_date month) - toordinal (start_date month) + 1.

(** [emp_records['DateTime'].dt.date.nunique()] *)
Definition present_days (emp_records : list Row) : Z :=
  nunique (row_date <$> emp_records).

(** [round((present_days / total_working_days) * 100, 2)] *)
Definition attendance_percentage (present_days total_working_days : Z) : float :=
  PyFloat.round
    (PrimFloat.mul
       (PrimFloat.div (PyFloat.of_Z present_days) (PyFloat.of_Z total_working_days))
       (PyFloat.of_Z 100))
    2.

Definition summary_row (month_df : list Row) (total_working_days : Z)
    (emp : string * string) : SummaryRow :=
  let '(emp_id, emp_name) := emp in
  let present_days := present_days (emp_records month_df emp_id) in
  let absent_days := total_working_days - present_days in
  mkSummaryRow emp_id emp_name total_working_days present_days absent_days
    (PyFloat.str (attendance_percentage present_days total_working_days) +:+ "%").

Definition generate_summary_report (df : list Row) (month : MonthKey)
    : option (list SummaryRow) :=
  let month_df := month_df df month in
  match month_df with
  | [] => None
  | _ :: _ =>
      Some (summary_row month_df (total_working_days month) <$> employees month_df)
  end.

(** ** [generate_reports] *)

(** What the run writes: sheets of the Excel workbook and CSV files. *)
Inductive Output :=
  | DetailSheet (sheet_name : string) (report : list ReportRow)
  | DetailCsv (csv_filename : string) (report : list ReportRow)
  | SummarySheet (sheet_name : string) (summary : list SummaryRow)
  | SummaryCsv (csv_filename : string) (summary : list SummaryRow).

#[global] Instance Output_eq_dec : EqDecision Output.
Proof. solve_decision. Defined.

(** [strftime('%B')] *)
Definition month_name (m : Z) : string :=
  nth (Z.to_nat m)
    [""; "January"; "February"; "March"; "April"; "May"; "June"; "July";
     "August"; "September"; "October"; "November"; "December"] "".

(** The month key as the script's string, ['YYYY-MM']. *)
Definition month_str (month : MonthKey) : string :=
  four_digits month.1 +:+ "-" +:+ two_digits month.2.

(** The body of the loop over [selected_months]: [written] is what the
    writer and the output directory hold so far. *)
Definition process_month (df : list Row) (output_dir : string)
    (written : list Output) (month : MonthKey) : list Output :=
  match generate_monthly_report df month with
  | None => written
  | Some monthly_report =>
      let sheet_name := month_name month.2 +:+ "-" +:+ four_digits month.1 in
      let written :=
        written ++
          [DetailSheet sheet_name monthly_report;
           DetailCsv (output_dir +:+ "/report_" +:+ month_str month +:+ ".csv")
                     monthly_report] in
      match generate_summary_report df month with
      | None => written
      | Some summary_report =>
          written ++
            [SummarySheet ("Summary-" +:+ sheet_name) summary_report;
             SummaryCsv (output_dir +:+ "/summary_" +:+ month_str month +:+ ".csv")
                        summary_report]
      end
  end.

(** [generate_reports]: nothing is written for an empty selection; otherwise
    the months are processed in order. *)
Definition generate_reports (df : list Row) (output_dir : string)
    (selected_months : list MonthKey) : list Output :=
  match selected_months with
  | [] => []
  | _ :: _ => foldl (process_month df output_dir) [] selected_months
  end.

(** ** Vocabulary of the statements *)

(** A data frame whose timestamps are all real instants. *)
Definition valid_df (df : list Row) : Prop :=
  Forall (λ r, valid_ts (DateTime r)) df.

(** The calendar days of a month, from the 1st on. *)
Definition days_of_month (month : MonthKey) : list Date :=
  (λ d, (month.1, month.2, d)) <$> seqZ 1 (days_in_month month.1 month.2).

(** The timestamps of the rows of one calendar day. *)
Definition timestamps_on (rows : list Row) (d : Date) : list Timestamp :=
  DateTime <$> filter (λ r, row_date r = d) rows.

(** The reduction of a list of timestamps by [agg]; [None] for no
    timestamp. *)
Definition reduce_step (agg : Timestamp → Timestamp → Timestamp)
    (o : option Timestamp) (t : Timestamp) : option Timestamp :=
  Some (match o with Some a => agg a t | None => t end).

Definition reduce (agg : Timestamp → Timestamp → Timestamp)
    (l : list Timestamp) : option Timestamp :=
  foldl (reduce_step agg) None l.

(** A day of the grid counts as attended when its status is P or E. *)
Definition attended (c : DayCell) : Prop :=
  day_status c = "P" ∨ day_status c = "E".

Definition attended_days (grid : list DayCell) : Z :=
  Z.of_nat (length (filter attended grid)).

(** A punch the grid cannot tell from a missing one: none at all, or one in
    the first minute of the day. *)
Definition reads_as_missing (o : option Timestamp) : Prop :=
  match o with
  | None => True
  | Some t => 0 ≤ ts_ns t < ns_per_minute
  end.

(** The number of days of [days] on which one of the rows falls. *)
Definition days_with_records (recs : list Row) (days : list Date) : Z :=
  Z.of_nat (length (filter (λ d, d ∈ row_date <$> recs) days)).

(** The percentage [100 * present / total] rounded to the nearest
    hundredth, counted in hundredths. *)
Definition percentage_hundredths (present total : Z) : Z :=
  PyFloat.round_half_even (10000 * present) total.

(** The shortest decimal of [h / 100]: two digits after the point, or one
    when the second would be a zero. *)
Definition shortest_decimal (h : Z) : string :=
  pretty (h / 100) +:+ "."
  +:+ (if h mod 10 =? 0 then PyFloat.digits 1 (h / 10 mod 10)
       else PyFloat.digits 2 (h mod 100)).

(** The string of the percentage of [present] days out of [total] is that
    shortest decimal. *)
Definition percentage_check (total present : Z) : Prop :=
  PyFloat.str (attendance_percentage present total)
  = shortest_decimal (percentage_hundredths present total).

#[global] Instance percentage_check_dec total present :
  Decision (percentage_check total present).
Proof. unfold percentage_check. apply _. Defined.

(** The punches of one employee id on one day, read off the data frame: the
    timestamps of the rows of [df] that fall in the month, carry the id (under
    whatever name), fall on the day, and whose label, in lower case, holds one
    of the keywords. *)
Definition punches (patterns : list string) (df : list Row) (month : MonthKey)
    (emp_id : string) (day : Date) : list Timestamp :=
  DateTime <$>
    filter (λ r, YearMonth r = month ∧ EmpID r = emp_id ∧ row_date r = day
                 ∧ contains_any patterns (lower (TR r)) = true) df.

(** The least IN punch and the greatest OUT punch of an employee id on a
    day. *)
Definition first_in (df : list Row) (month : MonthKey) (emp_id : string)
    (day : Date) : option Timestamp :=
  reduce ts_min (punches in_patterns df month emp_id day).

Definition last_out (df : list Row) (month : MonthKey) (emp_id : string)
    (day : Date) : option Timestamp :=
  reduce ts_max (punches out_patterns df month emp_id day).

(** The dates of the rows of [df] that fall in the month and carry the
    employee id, under whatever name. *)
Definition punch_dates (df : list Row) (month : MonthKey) (emp_id : string)
    : list Date :=
  row_date <$> filter (λ r, YearMonth r = month ∧ EmpID r = emp_id) df.

(** What the block of an employee shows, read off the data frame: the header
    carries the id and the name; the times, the status and the date of each
    day of the month come from the punches of the id. *)
Definition shown_block (df : list Row) (month : MonthKey)
    (emp_id emp_name : string) : list ReportRow :=
  [ mkReportRow (emp_id +:+ " - " +:+ emp_name) "Header" ((λ _, "") <$> all_days month);
    mkReportRow "In-Time" "InTime"
      ((λ day, time_str (first_in df month emp_id day)) <$> all_days month);
    mkReportRow "Out-Time" "OutTime"
      ((λ day, time_str (last_out df month emp_id day)) <$> all_days month);
    mkReportRow "Status" "Status"
      ((λ day, status (time_str (first_in df month emp_id day))
                 (time_str (last_out df month emp_id day))) <$> all_days month);
    mkReportRow "Date" "Date" (strftime_dmY <$> all_days month);
    mkReportRow "" "Separator" ((λ _, "") <$> all_days month) ].

(** What the summary row of an employee shows, read off the data frame. *)
Definition shown_summary (df : list Row) (month : MonthKey)
    (emp_id emp_name : string) : SummaryRow :=
  let total := total_working_days month in
  let present := nunique (punch_dates df month emp_id) in
  mkSummaryRow emp_id emp_name total present (total - present)
    (PyFloat.str (attendance_percentage present total) +:+ "%").

(** The direction of a label in the words of the specification: IN when it
    holds a keyword of the IN set only, OUT when it holds a keyword of the
    OUT set only, UNKNOWN when it holds keywords of both sets or of
    neither. *)
Inductive Direction :=
  | IN
  | OUT
  | UNKNOWN.

#[global] Instance Direction_eq_dec : EqDecision Direction.
Proof. solve_decision. Defined.

Definition spec_direction (label : string) : Direction :=
  match contains_any in_patterns (lower label),
        contains_any out_patterns (lower label) with
  | true, false => IN
  | false, true => OUT
  | _, _ => UNKNOWN
  end.

(** The events of one direction, in that sense, of an employee id on a
    day. *)
Definition spec_events (direction : Direction) (df : list Row) (month : MonthKey)
    (emp_id : string) (day : Date) : list Timestamp :=
  DateTime <$>
    filter (λ r, YearMonth r = month ∧ EmpID r = emp_id ∧ row_date r = day
                 ∧ spec_direction (TR r) = direction) df.

(** ** Sample data *)

Definition april_1 : Date := (2024, 4, 1).

(** One employee badging several times on one day: IN at 09:10, 09:05 and
    13:00, OUT at 17:00 and 17:30. *)
Definition several_punches : list Row :=
  [ mkRow "00000007" "Asha" "Check In" (at_time april_1 9 10 0);
    mkRow "00000007" "Asha" "Check Out" (at_time april_1 17 0 0);
    mkRow "00000007" "Asha" "Time In" (at_time april_1 9 5 0);
    mkRow "00000007" "Asha" "Entry" (at_time april_1 13 0 0);
    mkRow "00000007" "Asha" "Exit" (at_time april_1 17 30 0) ].

(** A day with labelled punches at 09:00 (IN) and 17:00 (OUT), and two
    punches whose label holds a keyword of both sets, at 08:00 and 18:00. *)
Definition labelled_day : list Row :=
  [ mkRow "00000003" "Zed" "Check In" (at_time (2024, 4, 2) 9 0 0);
    mkRow "00000003" "Zed" "Check Out" (at_time (2024, 4, 2) 17 0 0) ].

Definition in_out_punches : list Row :=
  [ mkRow "00000003" "Zed" "Check-In/Out" (at_time (2024, 4, 2) 8 0 0);
    mkRow "00000003" "Zed" "Check-In/Out" (at_time (2024, 4, 2) 18 0 0) ].

(** A night shift: IN thirty seconds after midnight and OUT at 08:00 on
    April 5th, and a lone IN at midnight on April 6th. *)
Definition night_shift : list Row :=
  [ mkRow "00000007" "Asha" "Check In" (at_time (2024, 4, 5) 0 0 30);
    mkRow "00000007" "Asha" "Check Out" (at_time (2024, 4, 5) 8 0 0);
    mkRow "00000007" "Asha" "Check In" (at_time (2024, 4, 6) 0 0 0) ].

(** IN at midnight and OUT at 17:00 on the same day. *)
Definition midnight_in : list Row :=
  [ mkRow "00000007" "Asha" "Check In" (at_time (2024, 4, 5) 0 0 0);
    mkRow "00000007" "Asha" "Check Out" (at_time (2024, 4, 5) 17 0 0) ].

(** Punches on the first five days of April only. *)
Definition first_five_days : list Row :=
  (λ d, mkRow "00000007" "Asha" "Check In" (at_time (2024, 4, d) 9 0 0)) <$> seqZ 1 5.

(** Two punches in December 2023. *)
Definition december_punches : list Row :=
  [ mkRow "00000007" "Asha" "Check In" (at_time (2023, 12, 31) 9 0 0);
    mkRow "00000007" "Asha" "Check Out" (at_time (2023, 12, 31) 17 0 0) ].

(** A single punch whose label holds no keyword. *)
Definition unlabelled_punch : list Row :=
  [ mkRow "00000003" "Zed" "nan" (at_time (2024, 4, 2) 12 0 0) ].

(** One employee id under two spellings of the name. *)
Definition two_spellings : list Row :=
  [ mkRow "00000007" "Asha" "Check In" (at_time april_1 9 0 0);
    mkRow "00000007" "Asha B" "Check Out" (at_time april_1 17 0 0) ].

(** A punch on each of the first fifteen days of April. *)
Definition half_month : list Row :=
  (λ d, mkRow "00000007" "Asha" "Check In" (at_time (2024, 4, d) 9 0 0)) <$> seqZ 1 15.

(** * The available months and the month key *)

(** ** More of Python's strings *)













(** ** The month key as a string *)


(** ** The available months of [preprocess_data] *)

(** The order of [sorted] on the [YearMonth] strings. *)
Definition month_str_le (a b : MonthKey) : Prop :=
  String.le (month_str a) (month_str b).

#[global] Instance month_str_le_dec : RelDecision month_str_le.
Proof. intros a b. unfold month_str_le. apply _. Defined.


(** ** Vocabulary of the further statements *)






(** * Properties *)

(** Linear arithmetic with division and remainder by constants. *)
Ltac div_lia := Z.div_mod_to_equations; lia.

(** ** The calendar *)

Section calendar.

Lemma days_in_month_bounds y m : 28 ≤ days_in_month y m ≤ 31.
Proof.
  unfold days_in_month.
  repeat case_match; lia.
Qed.

Lemma end_date_last_day y m :
  1 ≤ m ≤ 12 → end_date (y, m) = (y, m, days_in_month y m).
Proof.
  intros Hm. unfold end_date, prev_day; simpl.
  destruct (Z.eqb_spec m 12) as [->|Hne]; simpl.
  - by replace (y + 1 - 1) with y by lia.
  - destruct (Z.ltb_spec 1 (m + 1)); [|lia].
    by replace (m + 1 - 1) with m by lia.
Qed.

Lemma add_days_in_month y m (n : nat) :
  Z.of_nat n < days_in_month y m →
  add_days (y, m, 1) n = (y, m, 1 + Z.of_nat n).
Proof.
  induction n as [|n IH]; intros Hn; [done|].
  unfold add_days in *. simpl Nat.iter. rewrite IH by lia.
  unfold next_day.
  destruct (Z.ltb_spec (1 + Z.of_nat n) (days_in_month y m)); [|lia].
  f_equal. lia.
Qed.

Lemma total_working_days_eq y m :
  1 ≤ m ≤ 12 → total_working_days (y, m) = days_in_month y m.
Proof.
  intros Hm. unfold total_working_days. rewrite end_date_last_day by done.
  unfold start_date, toordinal, year, month, day; simpl. lia.
Qed.

(** [all_days] enumerates the month: day 1, day 2, ... up to its last
    day. *)
Lemma all_days_eq y m :
  1 ≤ m ≤ 12 → all_days (y, m) = days_of_month (y, m).
Proof.
  intros Hm. unfold all_days, date_range, days_of_month.
  fold (total_working_days (y, m)). rewrite total_working_days_eq by done.
  unfold seqZ. rewrite <-list_fmap_compose. simpl.
  apply Forall_fmap_ext_1, Forall_forall. intros n Hn%elem_of_seq. simpl.
  unfold start_date. simpl. rewrite add_days_in_month by lia.
  f_equal. lia.
Qed.

Lemma days_before_year_succ y :
  days_before_year (y + 1) = days_before_year y + (if is_leap y then 366 else 365).
Proof.
  unfold days_before_year, is_leap. simpl.
  replace (y + 1 - 1) with y by lia.
  destruct (Z.eqb_spec (y mod 4) 0), (Z.eqb_spec (y mod 100) 0),
    (Z.eqb_spec (y mod 400) 0); simpl; Z.div_mod_to_equations; lia.
Qed.

Lemma days_before_month_succ y m :
  1 ≤ m < 12 →
  days_before_month y (m + 1) = days_before_month y m + days_in_month y m.
Proof.
  intros Hm.
  assert (Hc : m ∈ seqZ 1 11) by (apply elem_of_seqZ; lia).
  unfold days_before_month, days_in_month.
  destruct (is_leap y);
    repeat (apply elem_of_cons in Hc as [->|Hc]; [done|]);
    by apply elem_of_nil in Hc.
Qed.

Lemma days_before_month_12 y :
  days_before_month y 12 + 31 = if is_leap y then 366 else 365.
Proof. unfold days_before_month. by destruct (is_leap y). Qed.

(** The step to the next day and the ordinal agree: the day after a real
    date has the next ordinal. *)
Lemma toordinal_next_day d :
  valid_date d → toordinal (next_day d) = toordinal d + 1.
Proof.
  destruct d as [[y m] dd]. unfold valid_date, year, month, day; simpl.
  rewrite !andb_True, !Is_true_true, !Z.leb_le. intros ((((Hy & Hm1) & Hm2) & Hd1) & Hd2).
  unfold next_day, toordinal, year, month, day.
  destruct (Z.ltb_spec dd (days_in_month y m)); simpl; [lia|].
  destruct (Z.ltb_spec m 12); simpl.
  - rewrite days_before_month_succ by lia. lia.
  - assert (m = 12) as -> by lia.
    rewrite days_before_year_succ. pose proof (days_before_month_12 y).
    assert (days_in_month y 12 = 31) by done.
    change (days_before_month (y + 1) 1) with 0. lia.
Qed.

(** Likewise for the step to the day before. *)
Lemma toordinal_prev_day d :
  valid_date d → toordinal (prev_day d) = toordinal d - 1.
Proof.
  destruct d as [[y m] dd]. unfold valid_date, year, month, day; simpl.
  rewrite !andb_True, !Is_true_true, !Z.leb_le. intros ((((Hy & Hm1) & Hm2) & Hd1) & Hd2).
  unfold prev_day, toordinal, year, month, day.
  destruct (Z.ltb_spec 1 dd) as [Hlt|Hge]; simpl; [lia|].
  destruct (Z.ltb_spec 1 m) as [Hlt|Hge']; simpl.
  - pose proof (days_before_month_succ y (m - 1) ltac:(lia)) as Hs.
    replace (m - 1 + 1) with m in Hs by lia. lia.
  - assert (m = 1) as -> by lia.
    pose proof (days_before_year_succ (y - 1)) as Hs.
    replace (y - 1 + 1) with y in Hs by lia.
    pose proof (days_before_month_12 (y - 1)).
    change (days_before_month y 1) with 0. lia.
Qed.

Lemma elem_of_days_of_month month d :
  d ∈ days_of_month month ↔
  year d = month.1 ∧ Calendar.month d = month.2
  ∧ 1 ≤ day d ≤ days_in_month month.1 month.2.
Proof.
  unfold days_of_month. rewrite list_elem_of_fmap. split.
  - intros (dd & -> & Hdd%elem_of_seqZ). unfold year, Calendar.month, day. simpl. lia.
  - destruct d as [[y m] dd]. unfold year, Calendar.month, day. simpl.
    intros (<- & <- & Hdd). exists dd. split; [by destruct month|].
    apply elem_of_seqZ. lia.
Qed.

Lemma NoDup_days_of_month month : NoDup (days_of_month month).
Proof.
  unfold days_of_month. apply NoDup_fmap_2; [|apply NoDup_seqZ].
  by intros d1 d2 [= ->].
Qed.

End calendar.


(** ** The order of timestamps *)

Section timestamp_order.

Lemma lex_leb_refl k : lex_leb k k.
Proof.
  induction k as [|x k IH]; simpl; [done|].
  rewrite Z.eqb_refl, orb_True, andb_True. by right.
Qed.

Lemma lex_leb_total k1 k2 : lex_leb k1 k2 ∨ lex_leb k2 k1.
Proof.
  revert k2. induction k1 as [|x k1 IH]; intros [|y k2]; simpl; auto.
  destruct (IH k2), (Z.ltb_spec x y), (Z.ltb_spec y x),
    (Z.eqb_spec x y), (Z.eqb_spec y x); simpl; auto; lia.
Qed.

Lemma lex_leb_trans k1 k2 k3 : lex_leb k1 k2 → lex_leb k2 k3 → lex_leb k1 k3.
Proof.
  revert k2 k3.
  induction k1 as [|x k1 IH]; intros [|y k2] [|z k3]; simpl; try done.
  rewrite !orb_True, !andb_True, !Is_true_true, !Z.ltb_lt, !Z.eqb_eq, <-!Is_true_true.
  intros [?|[-> ?]] [?|[-> ?]]; eauto with lia.
Qed.

Lemma lex_leb_antisym k1 k2 : lex_leb k1 k2 → lex_leb k2 k1 → k1 = k2.
Proof.
  revert k2. induction k1 as [|x k1 IH]; intros [|y k2]; simpl; try done.
  rewrite !orb_True, !andb_True, !Is_true_true, !Z.ltb_lt, !Z.eqb_eq, <-!Is_true_true.
  intros [?|[-> ?]] [?|[? ?]]; try lia. f_equal. by apply IH.
Qed.

Lemma ts_key_inj a b : ts_key a = ts_key b → a = b.
Proof.
  destruct a as [[[y1 m1] d1] n1], b as [[[y2 m2] d2] n2].
  unfold ts_key, year, month, day; simpl. by intros [= -> -> -> ->].
Qed.

Lemma ts_leb_refl a : ts_leb a a.
Proof. apply lex_leb_refl. Qed.

Lemma ts_leb_total a b : ts_leb a b ∨ ts_leb b a.
Proof. apply lex_leb_total. Qed.

Lemma ts_leb_trans a b c : ts_leb a b → ts_leb b c → ts_leb a c.
Proof. apply lex_leb_trans. Qed.

Lemma ts_leb_antisym a b : ts_leb a b → ts_leb b a → a = b.
Proof. intros. by apply ts_key_inj, lex_leb_antisym. Qed.

(** On one calendar day the order is the order of the times of day. *)
Lemma ts_leb_same_day d n1 n2 :
  ts_leb (mkTimestamp d n1) (mkTimestamp d n2) ↔ n1 ≤ n2.
Proof.
  unfold ts_leb, ts_key; simpl.
  rewrite !Z.ltb_irrefl, !Z.eqb_refl; simpl.
  destruct (Z.ltb_spec n1 n2), (Z.eqb_spec n1 n2); simpl; intuition lia.
Qed.

Lemma ts_min_cases a b :
  (ts_min a b = a ∨ ts_min a b = b) ∧ ts_leb (ts_min a b) a ∧ ts_leb (ts_min a b) b.
Proof.
  unfold ts_min. destruct (ts_leb a b) eqn:E.
  - split_and!; [by left|apply ts_leb_refl|by rewrite E].
  - destruct (ts_leb_total a b) as [H|H]; [by rewrite E in H|].
    split_and!; [by right|done|apply ts_leb_refl].
Qed.

Lemma ts_max_cases a b :
  (ts_max a b = a ∨ ts_max a b = b) ∧ ts_leb a (ts_max a b) ∧ ts_leb b (ts_max a b).
Proof.
  unfold ts_max. destruct (ts_leb a b) eqn:E.
  - split_and!; [by right|by rewrite E|apply ts_leb_refl].
  - destruct (ts_leb_total a b) as [H|H]; [by rewrite E in H|].
    split_and!; [by left|apply ts_leb_refl|done].
Qed.

End timestamp_order.

(** ** Reductions and [groupby] *)

Section reductions.

Lemma reduce_cons agg t l : reduce agg (t :: l) = Some (foldl agg t l).
Proof.
  unfold reduce. simpl. generalize t. clear t.
  induction l as [|x l IH]; intros t; simpl; [done|]. apply IH.
Qed.

Lemma foldl_min_spec a l :
  foldl ts_min a l ∈ a :: l ∧ Forall (λ t, ts_leb (foldl ts_min a l) t) (a :: l).
Proof.
  revert a. induction l as [|x l IH]; intros a; simpl.
  - split; [by left|]. repeat constructor. apply ts_leb_refl.
  - destruct (IH (ts_min a x)) as [Hin Hle].
    destruct (ts_min_cases a x) as (Hc & Ha & Hx).
    apply Forall_cons in Hle as [Hm Hle]. split.
    + apply elem_of_cons in Hin as [->|Hin]; [|by do 2 right].
      destruct Hc as [-> | ->]; [by left|by right; left].
    + repeat apply Forall_cons_2; eauto using ts_leb_trans.
Qed.

Lemma foldl_max_spec a l :
  foldl ts_max a l ∈ a :: l ∧ Forall (λ t, ts_leb t (foldl ts_max a l)) (a :: l).
Proof.
  revert a. induction l as [|x l IH]; intros a; simpl.
  - split; [by left|]. repeat constructor. apply ts_leb_refl.
  - destruct (IH (ts_max a x)) as [Hin Hle].
    destruct (ts_max_cases a x) as (Hc & Ha & Hx).
    apply Forall_cons in Hle as [Hm Hle]. split.
    + apply elem_of_cons in Hin as [->|Hin]; [|by do 2 right].
      destruct Hc as [-> | ->]; [by left|by right; left].
    + repeat apply Forall_cons_2; eauto using ts_leb_trans.
Qed.

(** [reduce ts_min] is the least timestamp of the list, [reduce ts_max] the
    greatest; there is none exactly when the list is empty. *)
Lemma reduce_min_spec l :
  match reduce ts_min l with
  | Some t => t ∈ l ∧ Forall (λ t', ts_leb t t') l
  | None => l = []
  end.
Proof. destruct l as [|a l]; [done|]. rewrite reduce_cons. apply foldl_min_spec. Qed.

Lemma reduce_max_spec l :
  match reduce ts_max l with
  | Some t => t ∈ l ∧ Forall (λ t', ts_leb t' t) l
  | None => l = []
  end.
Proof. destruct l as [|a l]; [done|]. rewrite reduce_cons. apply foldl_max_spec. Qed.

Lemma reduce_min_Permutation l1 l2 :
  l1 ≡ₚ l2 → reduce ts_min l1 = reduce ts_min l2.
Proof.
  intros Hp. pose proof (reduce_min_spec l1) as H1.
  pose proof (reduce_min_spec l2) as H2.
  destruct (reduce ts_min l1) as [t1|], (reduce ts_min l2) as [t2|].
  - destruct H1 as [Hin1 Hle1], H2 as [Hin2 Hle2]. f_equal.
    rewrite Forall_forall in Hle1, Hle2.
    apply ts_leb_antisym; [apply Hle1; by rewrite Hp|apply Hle2; by rewrite <-Hp].
  - subst. apply Permutation_nil_r in Hp. subst. by destruct H1 as [?%elem_of_nil _].
  - subst. apply Permutation_nil_l in Hp. subst. by destruct H2 as [?%elem_of_nil _].
  - done.
Qed.

Lemma reduce_max_Permutation l1 l2 :
  l1 ≡ₚ l2 → reduce ts_max l1 = reduce ts_max l2.
Proof.
  intros Hp. pose proof (reduce_max_spec l1) as H1.
  pose proof (reduce_max_spec l2) as H2.
  destruct (reduce ts_max l1) as [t1|], (reduce ts_max l2) as [t2|].
  - destruct H1 as [Hin1 Hle1], H2 as [Hin2 Hle2]. f_equal.
    rewrite Forall_forall in Hle1, Hle2.
    apply ts_leb_antisym; [apply Hle2; by rewrite <-Hp|apply Hle1; by rewrite Hp].
  - subst. apply Permutation_nil_r in Hp. subst. by destruct H1 as [?%elem_of_nil _].
  - subst. apply Permutation_nil_l in Hp. subst. by destruct H2 as [?%elem_of_nil _].
  - done.
Qed.

Lemma groupby_date_lookup_from agg acc rows d :
  foldl (groupby_step agg) acc rows !! d
  = foldl (reduce_step agg) (acc !! d) (timestamps_on rows d).
Proof.
  revert acc. induction rows as [|r rows IH]; intros acc; [done|].
  simpl. rewrite IH. unfold timestamps_on, groupby_step. rewrite filter_cons.
  case_decide as Hd; simpl.
  - rewrite <-Hd. by rewrite lookup_insert_eq.
  - by rewrite lookup_insert_ne.
Qed.

(** The series [groupby_date agg rows] holds, at every date, the reduction
    of the timestamps of the rows of that date. *)
Lemma groupby_date_lookup agg rows d :
  groupby_date agg rows !! d = reduce agg (timestamps_on rows d).
Proof. unfold groupby_date. by rewrite groupby_date_lookup_from, lookup_empty. Qed.

Lemma timestamps_on_Permutation rows1 rows2 d :
  rows1 ≡ₚ rows2 → timestamps_on rows1 d ≡ₚ timestamps_on rows2 d.
Proof. intros Hp. unfold timestamps_on. by rewrite Hp. Qed.

End reductions.

(** ** [drop_duplicates], [sorted] and the list of employees *)

Section employees.

Context `{EqDecision A}.

Lemma elem_of_drop_duplicates_from (seen l : list A) x :
  x ∈ drop_duplicates_from seen l ↔ x ∈ l ∧ x ∉ seen.
Proof.
  revert seen. induction l as [|y l IH]; intros seen; simpl.
  - split; [by intros ?%elem_of_nil|by intros [?%elem_of_nil _]].
  - destruct (decide (y ∈ seen)) as [Hy|Hy].
    + rewrite IH, elem_of_cons. split; [tauto|].
      intros [[->|?] ?]; tauto.
    + rewrite !elem_of_cons, IH, elem_of_cons.
      destruct (decide (x = y)) as [->|]; tauto.
Qed.

Lemma NoDup_drop_duplicates_from (seen l : list A) :
  NoDup (drop_duplicates_from seen l).
Proof.
  revert seen. induction l as [|y l IH]; intros seen; simpl; [constructor|].
  destruct (decide (y ∈ seen)); [apply IH|].
  constructor; [|apply IH].
  rewrite elem_of_drop_duplicates_from, elem_of_cons. tauto.
Qed.

Lemma elem_of_drop_duplicates (l : list A) x : x ∈ drop_duplicates l ↔ x ∈ l.
Proof.
  unfold drop_duplicates. rewrite elem_of_drop_duplicates_from.
  split; [tauto|]. intros ?. split; [done|]. by intros ?%elem_of_nil.
Qed.

Lemma NoDup_drop_duplicates (l : list A) : NoDup (drop_duplicates l).
Proof. apply NoDup_drop_duplicates_from. Qed.

Lemma drop_duplicates_Permutation (l1 l2 : list A) :
  l1 ≡ₚ l2 → drop_duplicates l1 ≡ₚ drop_duplicates l2.
Proof.
  intros Hp. apply NoDup_Permutation; [apply NoDup_drop_duplicates..|].
  intros x. by rewrite !elem_of_drop_duplicates, Hp.
Qed.

Lemma nunique_Permutation (l1 l2 : list A) : l1 ≡ₚ l2 → nunique l1 = nunique l2.
Proof. intros Hp. unfold nunique. by rewrite (drop_duplicates_Permutation _ _ Hp). Qed.

(** [nunique] counts the values of any duplicate-free list that has the
    same elements. *)
Lemma nunique_eq_length (l k : list A) :
  NoDup k → (∀ x, x ∈ k ↔ x ∈ l) → nunique l = Z.of_nat (length k).
Proof.
  intros Hk Hkl. unfold nunique. f_equal. apply Permutation_length.
  apply NoDup_Permutation; [apply NoDup_drop_duplicates|done|].
  intros x. by rewrite elem_of_drop_duplicates, Hkl.
Qed.

End employees.

Section emp_order.

#[local] Instance emp_le_total : Total emp_le.
Proof.
  intros a b. unfold emp_le.
  destruct (decide (a.1 = b.1)) as [E|E], (decide (b.1 = a.1)) as [E'|E'];
    try congruence; apply total, _.
Qed.

#[local] Instance emp_le_trans : Transitive emp_le.
Proof.
  intros [a1 a2] [b1 b2] [c1 c2]. unfold emp_le; simpl.
  destruct (decide (a1 = b1)) as [->|E1], (decide (b1 = c1)) as [->|E2];
    try (destruct (decide (a1 = c1)) as [->|E3]);
    try (destruct (decide (b1 = c1)) as [->|E3]);
    try (destruct (decide (c1 = c1)) as [_|E3]);
    intros H1 H2; try done; try (by etrans).
  exfalso. apply E1. by apply (anti_symm String.le).
Qed.

#[local] Instance emp_le_antisymm : AntiSymm (=) emp_le.
Proof.
  intros [a1 a2] [b1 b2]. unfold emp_le; simpl.
  destruct (decide (a1 = b1)) as [E|E], (decide (b1 = a1)) as [E'|E'];
    try congruence.
  - intros H1 H2. f_equal; [done|]. by apply (anti_symm String.le).
  - intros H1 H2. by destruct E; apply (anti_symm String.le).
Qed.

Lemma Sorted_employees month_df : Sorted emp_le (employees month_df).
Proof. apply Sorted_merge_sort, _. Qed.

Lemma elem_of_employees month_df e :
  e ∈ employees month_df ↔ e ∈ id_name <$> month_df.
Proof.
  unfold employees. by rewrite merge_sort_Permutation, elem_of_drop_duplicates.
Qed.

Lemma NoDup_employees month_df : NoDup (employees month_df).
Proof.
  unfold employees. rewrite merge_sort_Permutation. apply NoDup_drop_duplicates.
Qed.

(** The list of employees depends on the set of (id, name) pairs of the
    month only, not on the order of the rows. *)
Lemma employees_Permutation md1 md2 : md1 ≡ₚ md2 → employees md1 = employees md2.
Proof.
  intros Hp. apply (Sorted_unique emp_le); [apply Sorted_employees..|].
  unfold employees. rewrite !merge_sort_Permutation.
  apply drop_duplicates_Permutation. by rewrite Hp.
Qed.

End emp_order.

(** ** The daily grid *)

Section grid.

Lemma in_times_lookup recs d :
  in_times recs !! d = reduce ts_min (timestamps_on (df_in recs) d).
Proof. apply groupby_date_lookup. Qed.

Lemma out_times_lookup recs d :
  out_times recs !! d = reduce ts_max (timestamps_on (df_out recs) d).
Proof. apply groupby_date_lookup. Qed.

Lemma in_times_Permutation recs1 recs2 :
  recs1 ≡ₚ recs2 → in_times recs1 = in_times recs2.
Proof.
  intros Hp. apply map_eq. intros d. rewrite !in_times_lookup.
  apply reduce_min_Permutation, timestamps_on_Permutation.
  unfold df_in. by rewrite Hp.
Qed.

Lemma out_times_Permutation recs1 recs2 :
  recs1 ≡ₚ recs2 → out_times recs1 = out_times recs2.
Proof.
  intros Hp. apply map_eq. intros d. rewrite !out_times_lookup.
  apply reduce_max_Permutation, timestamps_on_Permutation.
  unfold df_out. by rewrite Hp.
Qed.

Lemma month_df_Permutation df1 df2 month :
  df1 ≡ₚ df2 → month_df df1 month ≡ₚ month_df df2 month.
Proof. intros Hp. unfold month_df. by rewrite Hp. Qed.

Lemma emp_records_Permutation md1 md2 emp_id :
  md1 ≡ₚ md2 → emp_records md1 emp_id ≡ₚ emp_records md2 emp_id.
Proof. intros Hp. unfold emp_records. by rewrite Hp. Qed.

Lemma employee_grid_Permutation md1 md2 days emp_id :
  md1 ≡ₚ md2 → employee_grid md1 days emp_id = employee_grid md2 days emp_id.
Proof.
  intros Hp. unfold employee_grid.
  by rewrite (in_times_Permutation _ _ (emp_records_Permutation _ _ emp_id Hp)),
    (out_times_Permutation _ _ (emp_records_Permutation _ _ emp_id Hp)).
Qed.

Lemma employee_rows_Permutation md1 md2 days emp :
  md1 ≡ₚ md2 → employee_rows md1 days emp = employee_rows md2 days emp.
Proof.
  intros Hp. destruct emp as [emp_id emp_name]. unfold employee_rows.
  by rewrite (employee_grid_Permutation _ _ days emp_id Hp).
Qed.

End grid.

(** C7.  Running the aggregation of a month on any permutation of the rows
    gives the same grid for every employee (the same first IN, last OUT and
    status on every day) and the same monthly report; in particular running
    it again on the same rows gives the same result. *)
Theorem aggregation_order_independent df df' month :
  df ≡ₚ df' →
  (∀ emp_id,
     employee_grid (month_df df' month) (all_days month) emp_id
     = employee_grid (month_df df month) (all_days month) emp_id)
  ∧ generate_monthly_report df' month = generate_monthly_report df month.
Proof.
  intros Hp. pose proof (month_df_Permutation _ _ month Hp) as Hm.
  split.
  - intros emp_id. symmetry. by apply employee_grid_Permutation.
  - unfold generate_monthly_report.
    destruct (month_df df month) as [|r md] eqn:E1,
      (month_df df' month) as [|r' md'] eqn:E2.
    + done.
    + by apply Permutation_nil_l in Hm.
    + by apply Permutation_nil_r in Hm.
    + rewrite <-(employees_Permutation _ _ Hm). f_equal.
      apply list_bind_ext; [|done]. intros emp. symmetry.
      by apply employee_rows_Permutation.
Qed.

Lemma aggregation_order_independent_witness :
  generate_monthly_report (reverse several_punches) (2024, 4)
  = generate_monthly_report several_punches (2024, 4).
Proof.
  apply (aggregation_order_independent several_punches (reverse several_punches)).
  symmetry. apply reverse_Permutation.
Defined.

(** ** The grid, read off the data frame *)

Section off_the_frame.

Lemma emp_records_month_df df month emp_id :
  emp_records (month_df df month) emp_id
  = filter (λ r, YearMonth r = month ∧ EmpID r = emp_id) df.
Proof.
  unfold emp_records, month_df. rewrite list_filter_filter.
  apply list_filter_iff. tauto.
Qed.

Lemma timestamps_on_df_in df month emp_id day :
  timestamps_on (df_in (emp_records (month_df df month) emp_id)) day
  = punches in_patterns df month emp_id day.
Proof.
  unfold timestamps_on, df_in, emp_records, month_df, punches.
  rewrite !list_filter_filter. f_equal. apply list_filter_iff. tauto.
Qed.

Lemma timestamps_on_df_out df month emp_id day :
  timestamps_on (df_out (emp_records (month_df df month) emp_id)) day
  = punches out_patterns df month emp_id day.
Proof.
  unfold timestamps_on, df_out, emp_records, month_df, punches.
  rewrite !list_filter_filter. f_equal. apply list_filter_iff. tauto.
Qed.

Lemma in_times_first_in df month emp_id day :
  in_times (emp_records (month_df df month) emp_id) !! day
  = first_in df month emp_id day.
Proof. by rewrite in_times_lookup, timestamps_on_df_in. Qed.

Lemma out_times_last_out df month emp_id day :
  out_times (emp_records (month_df df month) emp_id) !! day
  = last_out df month emp_id day.
Proof. by rewrite out_times_lookup, timestamps_on_df_out. Qed.

(** The cell of a day in the grid of an employee, read off the data
    frame. *)
Lemma day_cell_shown df month emp_id day :
  day_cell (in_times (emp_records (month_df df month) emp_id))
    (out_times (emp_records (month_df df month) emp_id)) day
  = mkDayCell (first_in df month emp_id day) (last_out df month emp_id day)
      (time_str (first_in df month emp_id day))
      (time_str (last_out df month emp_id day))
      (status (time_str (first_in df month emp_id day))
         (time_str (last_out df month emp_id day)))
      (strftime_dmY day).
Proof. unfold day_cell. by rewrite in_times_first_in, out_times_last_out. Qed.

(** The rows of an employee in the report are the block read off the data
    frame. *)
Lemma employee_rows_shown df month emp_id emp_name :
  employee_rows (month_df df month) (all_days month) (emp_id, emp_name)
  = shown_block df month emp_id emp_name.
Proof.
  unfold employee_rows, employee_grid, shown_block.
  rewrite (list_fmap_ext _ _ _ (λ _ day _, day_cell_shown df month emp_id day)).
  by rewrite <-!list_fmap_compose.
Qed.

(** Likewise for the row of an employee in the summary. *)
Lemma summary_row_shown df month emp_id emp_name :
  summary_row (month_df df month) (total_working_days month) (emp_id, emp_name)
  = shown_summary df month emp_id emp_name.
Proof.
  unfold summary_row, shown_summary, present_days, punch_dates.
  by rewrite emp_records_month_df.
Qed.

End off_the_frame.

(** C5, as the code has it.  On every calendar day of the month, the first
    IN of an employee is the least timestamp among the rows of the month
    that carry the employee's id, fall on that day and whose label holds an
    IN keyword, and the last OUT the greatest timestamp among those whose
    label holds an OUT keyword; a label holding keywords of both sets counts
    on both sides.  There is no first IN (last OUT) exactly when there is no
    such row, and several punches collapse to one in-time and one out-time.
    For IN at 09:05, 09:10, 13:00 and OUT at 17:00, 17:30 the day shows
    09:05, 17:30 and status P. *)
Theorem first_in_last_out_min_max df month emp_id :
  Forall2
    (λ day cell,
       match in_time cell with
       | Some t =>
           t ∈ punches in_patterns df month emp_id day
           ∧ Forall (λ t', ts_leb t t') (punches in_patterns df month emp_id day)
       | None => punches in_patterns df month emp_id day = []
       end
       ∧ match out_time cell with
         | Some t =>
             t ∈ punches out_patterns df month emp_id day
             ∧ Forall (λ t', ts_leb t' t) (punches out_patterns df month emp_id day)
         | None => punches out_patterns df month emp_id day = []
         end
       ∧ in_time_str cell = time_str (in_time cell)
       ∧ out_time_str cell = time_str (out_time cell))
    (all_days month)
    (employee_grid (month_df df month) (all_days month) emp_id)
  ∧ employee_grid (month_df several_punches (2024, 4)) (all_days (2024, 4))
      "00000007" !! 0%nat
    = Some (mkDayCell (Some (at_time april_1 9 5 0)) (Some (at_time april_1 17 30 0))
              "09:05" "17:30" "P" "01-04-2024").
Proof.
  split; [|by vm_compute].
  unfold employee_grid. apply Forall2_fmap_r, Forall_Forall2_diag, Forall_forall.
  intros day _. simpl. rewrite in_times_first_in, out_times_last_out.
  split_and!; [apply reduce_min_spec|apply reduce_max_spec|done..].
Qed.

(** C5, as stated, fails.  With the directions of the specification the IN
    events of employee 00000003 on April 2nd are the punch at 09:00 and the
    OUT events the punch at 17:00, the two punches labelled "Check-In/Out"
    being UNKNOWN; the grid shows 08:00 as first IN and 18:00 as last OUT,
    which are those two punches. *)
Lemma first_in_is_not_least_in_event :
  reduce ts_min
    (spec_events IN (labelled_day ++ in_out_punches) (2024, 4) "00000003" (2024, 4, 2))
  = Some (at_time (2024, 4, 2) 9 0 0)
  ∧ reduce ts_max
      (spec_events OUT (labelled_day ++ in_out_punches) (2024, 4) "00000003"
         (2024, 4, 2))
    = Some (at_time (2024, 4, 2) 17 0 0)
  ∧ employee_grid (month_df (labelled_day ++ in_out_punches) (2024, 4))
      (all_days (2024, 4)) "00000003" !! 1%nat
    = Some (mkDayCell (Some (at_time (2024, 4, 2) 8 0 0))
              (Some (at_time (2024, 4, 2) 18 0 0)) "08:00" "18:00" "P" "02-04-2024").
Proof. by vm_compute. Qed.

(** ** The selection of IN and OUT rows *)

Section selection.

Lemma df_in_app recs1 recs2 : df_in (recs1 ++ recs2) = df_in recs1 ++ df_in recs2.
Proof. apply filter_app. Qed.

Lemma df_out_app recs1 recs2 : df_out (recs1 ++ recs2) = df_out recs1 ++ df_out recs2.
Proof. apply filter_app. Qed.

Lemma elem_of_timestamps_on rows d t :
  t ∈ timestamps_on rows d ↔ ∃ r, r ∈ rows ∧ row_date r = d ∧ DateTime r = t.
Proof.
  unfold timestamps_on. rewrite list_elem_of_fmap. split.
  - intros (r & -> & [? ?]%list_elem_of_filter). by exists r.
  - intros (r & ? & ? & <-). exists r. by rewrite list_elem_of_filter.
Qed.

(** A row selected as IN bounds the first IN of its day from above. *)
Lemma in_times_bound recs r :
  r ∈ df_in recs →
  ∃ t, in_times recs !! row_date r = Some t ∧ ts_leb t (DateTime r).
Proof.
  intros Hr. rewrite in_times_lookup.
  assert (Hin : DateTime r ∈ timestamps_on (df_in recs) (row_date r))
    by (apply elem_of_timestamps_on; by exists r).
  pose proof (reduce_min_spec (timestamps_on (df_in recs) (row_date r))) as H.
  destruct (reduce ts_min _) as [t|].
  - exists t. split; [done|]. destruct H as [_ H]. by rewrite Forall_forall in H; apply H.
  - rewrite H in Hin. by apply elem_of_nil in Hin.
Qed.

(** A row selected as OUT bounds the last OUT of its day from below. *)
Lemma out_times_bound recs r :
  r ∈ df_out recs →
  ∃ t, out_times recs !! row_date r = Some t ∧ ts_leb (DateTime r) t.
Proof.
  intros Hr. rewrite out_times_lookup.
  assert (Hin : DateTime r ∈ timestamps_on (df_out recs) (row_date r))
    by (apply elem_of_timestamps_on; by exists r).
  pose proof (reduce_max_spec (timestamps_on (df_out recs) (row_date r))) as H.
  destruct (reduce ts_max _) as [t|].
  - exists t. split; [done|]. destruct H as [_ H]. by rewrite Forall_forall in H; apply H.
  - rewrite H in Hin. by apply elem_of_nil in Hin.
Qed.

End selection.

(** C2, as the code has it.  The IN rows and the OUT rows are selected
    independently: a row whose label holds an IN keyword takes part in the
    first-IN minimum of its day, one whose label holds an OUT keyword in the
    last-OUT maximum, and a row takes part in neither exactly when its label
    holds no keyword of either set: such a row can be removed from the rows of
    the month without changing the grid of any employee.  A label holding
    keywords of both sets takes part in both. *)
Theorem label_selection recs1 r recs2 :
  (if contains_any in_patterns (lower (TR r))
   then r ∈ df_in (recs1 ++ r :: recs2)
        ∧ ∃ t, in_times (recs1 ++ r :: recs2) !! row_date r = Some t
               ∧ ts_leb t (DateTime r)
   else in_times (recs1 ++ r :: recs2) = in_times (recs1 ++ recs2))
  ∧ (if contains_any out_patterns (lower (TR r))
     then r ∈ df_out (recs1 ++ r :: recs2)
          ∧ ∃ t, out_times (recs1 ++ r :: recs2) !! row_date r = Some t
                 ∧ ts_leb (DateTime r) t
     else out_times (recs1 ++ r :: recs2) = out_times (recs1 ++ recs2))
  ∧ (if contains_any in_patterns (lower (TR r))
        || contains_any out_patterns (lower (TR r))
     then True
     else ∀ days emp_id,
            employee_grid (recs1 ++ r :: recs2) days emp_id
            = employee_grid (recs1 ++ recs2) days emp_id).
Proof.
  split_and!.
  - destruct (contains_any in_patterns (lower (TR r))) eqn:E.
    + assert (Hr : r ∈ df_in (recs1 ++ r :: recs2)).
      { rewrite df_in_app, elem_of_app. right. unfold df_in.
        rewrite filter_cons_True by done. by left. }
      split; [done|]. by apply in_times_bound.
    + unfold in_times. rewrite !df_in_app. unfold df_in at 2.
      rewrite filter_cons_False; [done|]. by rewrite E.
  - destruct (contains_any out_patterns (lower (TR r))) eqn:E.
    + assert (Hr : r ∈ df_out (recs1 ++ r :: recs2)).
      { rewrite df_out_app, elem_of_app. right. unfold df_out.
        rewrite filter_cons_True by done. by left. }
      split; [done|]. by apply out_times_bound.
    + unfold out_times. rewrite !df_out_app. unfold df_out at 2.
      rewrite filter_cons_False; [done|]. by rewrite E.
  - destruct (contains_any in_patterns (lower (TR r))) eqn:Ei,
      (contains_any out_patterns (lower (TR r))) eqn:Eo; try done; simpl.
    intros days emp_id. unfold employee_grid, emp_records.
    rewrite !filter_app, filter_cons. case_decide; [|done].
    unfold in_times, out_times. rewrite !df_in_app, !df_out_app.
    unfold df_in at 2, df_out at 2.
    rewrite !filter_cons_False; [done|by rewrite Eo|by rewrite Ei].
Qed.

(** C2, as stated, fails: the label "Check-In/Out" holds a keyword of both
    sets, and the two punches carrying it move the first IN of the day from
    09:00 to 08:00 and the last OUT from 17:00 to 18:00. *)
Lemma in_out_label_counts_as_in_and_out :
  contains_any in_patterns (lower "Check-In/Out") = true
  ∧ contains_any out_patterns (lower "Check-In/Out") = true
  ∧ employee_grid labelled_day [(2024, 4, 2)] "00000003"
    = [ mkDayCell (Some (at_time (2024, 4, 2) 9 0 0)) (Some (at_time (2024, 4, 2) 17 0 0))
          "09:00" "17:00" "P" "02-04-2024" ]
  ∧ employee_grid (labelled_day ++ in_out_punches) [(2024, 4, 2)] "00000003"
    = [ mkDayCell (Some (at_time (2024, 4, 2) 8 0 0)) (Some (at_time (2024, 4, 2) 18 0 0))
          "08:00" "18:00" "P" "02-04-2024" ].
Proof. by vm_compute. Qed.

(** ** The status of a day *)

Section status.

Lemma strftime_HM_midnight t :
  0 ≤ ts_ns t < ns_per_minute → strftime_HM t = "00:00".
Proof.
  intros Hns. unfold strftime_HM, hour, minute.
  assert (ts_ns t / ns_per_hour = 0) as ->
    by (apply Z.div_small; unfold ns_per_hour, ns_per_minute in *; lia).
  assert (ts_ns t / ns_per_minute = 0) as -> by (by apply Z.div_small).
  done.
Qed.

Lemma digit_inj a b : 0 ≤ a ≤ 9 → 0 ≤ b ≤ 9 → digit a = digit b → a = b.
Proof.
  intros Ha Hb H. unfold digit in H.
  apply (f_equal N_of_ascii) in H.
  rewrite !N_ascii_embedding in H by lia. lia.
Qed.

Lemma two_digits_zero n : 0 ≤ n ≤ 99 → two_digits n = "00" → n = 0.
Proof.
  intros Hn. unfold two_digits. intros [= H1 H2].
  apply (digit_inj _ 0) in H1; [|div_lia..].
  apply (digit_inj _ 0) in H2; [|div_lia..]. div_lia.
Qed.



Lemma time_str_missing o : reads_as_missing o → time_str o = "00:00".
Proof. destruct o as [t|]; [apply strftime_HM_midnight|done]. Qed.

End status.

(** C3, evaluated where the code departs from it.  On April 5th the
    employee has a resolved IN (00:00:30) and a resolved OUT (08:00), and the
    day is given status E instead of P; on April 6th there is a resolved IN
    (00:00:00) and no OUT, and the day is given status A instead of E. *)
Theorem midnight_punch_breaks_status :
  employee_grid night_shift [(2024, 4, 5); (2024, 4, 6)] "00000007"
  = [ mkDayCell (Some (at_time (2024, 4, 5) 0 0 30)) (Some (at_time (2024, 4, 5) 8 0 0))
        "00:00" "08:00" "E" "05-04-2024";
      mkDayCell (Some (at_time (2024, 4, 6) 0 0 0)) None
        "00:00" "00:00" "A" "06-04-2024" ].
Proof. by vm_compute. Qed.

(** C9.  A day without a resolved IN punch shows 00:00 as its In-Time
    (likewise Out-Time without an OUT punch).  A punch in the first minute of
    the day is printed 00:00 as well, and the status is then the one the day
    would have without that punch: IN at midnight and OUT at 17:00 give
    status E, not P. *)
Theorem midnight_punch_reads_as_missing
    (in_times out_times : gmap Date Timestamp) (day : Date) :
  (in_times !! day = None →
     in_time_str (day_cell in_times out_times day) = "00:00")
  ∧ (out_times !! day = None →
       out_time_str (day_cell in_times out_times day) = "00:00")
  ∧ (reads_as_missing (in_times !! day) →
       in_time_str (day_cell in_times out_times day) = "00:00"
       ∧ day_status (day_cell in_times out_times day)
         = day_status (day_cell (delete day in_times) out_times day))
  ∧ (reads_as_missing (out_times !! day) →
       out_time_str (day_cell in_times out_times day) = "00:00"
       ∧ day_status (day_cell in_times out_times day)
         = day_status (day_cell in_times (delete day out_times) day))
  ∧ employee_grid midnight_in [(2024, 4, 5)] "00000007"
    = [ mkDayCell (Some (at_time (2024, 4, 5) 0 0 0))
          (Some (at_time (2024, 4, 5) 17 0 0)) "00:00" "17:00" "E" "05-04-2024" ].
Proof.
  unfold day_cell; simpl. split_and!.
  - by intros ->.
  - by intros ->.
  - intros H. rewrite lookup_delete_eq. simpl. by rewrite (time_str_missing _ H).
  - intros H. rewrite lookup_delete_eq. simpl. by rewrite (time_str_missing _ H).
  - by vm_compute.
Qed.

Lemma midnight_punch_reads_as_missing_witness :
  in_time_str
    (day_cell (in_times midnight_in) (out_times midnight_in) (2024, 4, 5)) = "00:00"
  ∧ day_status
      (day_cell (in_times midnight_in) (out_times midnight_in) (2024, 4, 5))
    = day_status
        (day_cell (delete (2024, 4, 5) (in_times midnight_in))
           (out_times midnight_in) (2024, 4, 5)).
Proof.
  apply (midnight_punch_reads_as_missing
           (in_times midnight_in) (out_times midnight_in) (2024, 4, 5)).
  by vm_compute.
Defined.

(** ** Completeness of the grid *)

Section completeness.

Lemma elem_of_df_in recs r : r ∈ df_in recs → r ∈ recs.
Proof. unfold df_in. by intros [_ ?]%list_elem_of_filter. Qed.

Lemma elem_of_df_out recs r : r ∈ df_out recs → r ∈ recs.
Proof. unfold df_out. by intros [_ ?]%list_elem_of_filter. Qed.

Lemma timestamps_on_nil rows d :
  d ∉ row_date <$> rows → timestamps_on rows d = [].
Proof.
  intros Hd. destruct (timestamps_on rows d) as [|t l] eqn:E; [done|].
  assert (Ht : t ∈ timestamps_on rows d) by (rewrite E; by left).
  apply elem_of_timestamps_on in Ht as (r & Hr & <- & _).
  destruct Hd. apply list_elem_of_fmap. by exists r.
Qed.

(** A day on which the employee has no row has no first IN and no last
    OUT. *)
Lemma no_rows_no_times recs d :
  d ∉ row_date <$> recs → in_times recs !! d = None ∧ out_times recs !! d = None.
Proof.
  intros Hd. rewrite in_times_lookup, out_times_lookup.
  rewrite !timestamps_on_nil; [done|..].
  - intros (r & -> & Hr%elem_of_df_out)%list_elem_of_fmap.
    apply Hd, list_elem_of_fmap. by exists r.
  - intros (r & -> & Hr%elem_of_df_in)%list_elem_of_fmap.
    apply Hd, list_elem_of_fmap. by exists r.
Qed.

Lemma day_cell_absent recs d :
  d ∉ row_date <$> recs →
  day_cell (in_times recs) (out_times recs) d
  = mkDayCell None None "00:00" "00:00" "A" (strftime_dmY d).
Proof.
  intros [Hi Ho]%no_rows_no_times. unfold day_cell. by rewrite Hi, Ho.
Qed.

Lemma length_days_of_month month :
  length (days_of_month month) = Z.to_nat (days_in_month month.1 month.2).
Proof. unfold days_of_month. by rewrite length_fmap, length_seqZ. Qed.

Lemma days_of_month_lookup month (i : nat) :
  (i < Z.to_nat (days_in_month month.1 month.2))%nat →
  days_of_month month !! i = Some (month.1, month.2, 1 + Z.of_nat i).
Proof.
  intros Hi. unfold days_of_month. rewrite list_lookup_fmap.
  by rewrite lookup_seqZ_lt by lia.
Qed.

Lemma length_Days_employee_rows md days emp :
  Forall (λ row, length (Days row) = length days) (employee_rows md days emp).
Proof.
  destruct emp as [emp_id emp_name]. unfold employee_rows, employee_grid.
  repeat constructor; simpl; by rewrite !length_fmap.
Qed.

End completeness.

(** C4.  For every month (December included: its last day is found from
    January 1st of the next year) the grid of an employee has exactly as many
    entries as the month has days; entry number [i] (from 0) is the one of day
    [1 + i] of the month, so the entries go from day 1 on, one day apart,
    without gap or duplicate; a day without any row of the employee is an
    absent one, with no first IN and no last OUT; and every row of the
    monthly report has one column per day. *)
Theorem month_grid_complete df month emp_id :
  1 ≤ month.2 ≤ 12 →
  length (employee_grid (month_df df month) (all_days month) emp_id)
  = Z.to_nat (days_in_month month.1 month.2)
  ∧ (∀ i : nat,
       (i < Z.to_nat (days_in_month month.1 month.2))%nat →
       employee_grid (month_df df month) (all_days month) emp_id !! i
       = Some (day_cell (in_times (emp_records (month_df df month) emp_id))
                 (out_times (emp_records (month_df df month) emp_id))
                 (month.1, month.2, 1 + Z.of_nat i)))
  ∧ (∀ d, d ∉ row_date <$> emp_records (month_df df month) emp_id →
          day_cell (in_times (emp_records (month_df df month) emp_id))
            (out_times (emp_records (month_df df month) emp_id)) d
          = mkDayCell None None "00:00" "00:00" "A" (strftime_dmY d))
  ∧ (∀ report, generate_monthly_report df month = Some report →
       Forall (λ row, length (Days row) = Z.to_nat (days_in_month month.1 month.2))
         report).
Proof.
  destruct month as [y m]. simpl. intros Hm.
  rewrite all_days_eq by done. split_and!.
  - unfold employee_grid. by rewrite length_fmap, length_days_of_month.
  - intros i Hi. unfold employee_grid.
    by rewrite list_lookup_fmap, (days_of_month_lookup (y, m)).
  - apply day_cell_absent.
  - intros report. unfold generate_monthly_report.
    destruct (month_df df (y, m)) as [|r md] eqn:E; [done|]. intros [= <-].
    apply Forall_bind, Forall_forall. intros emp _.
    rewrite all_days_eq by done.
    pose proof (length_days_of_month (y, m)) as Hl. simpl in Hl.
    rewrite <-Hl. apply length_Days_employee_rows.
Qed.

Lemma month_grid_complete_witness :
  length (employee_grid (month_df december_punches (2023, 12)) (all_days (2023, 12))
            "00000007") = 31%nat.
Proof.
  destruct (month_grid_complete december_punches (2023, 12) "00000007") as [H _];
    [simpl; lia|exact H].
Defined.

(** The absence example of the specification: punches on days 1 to 5 of a
    30-day month leave days 6 to 30 absent. *)
Lemma first_five_days_status :
  day_status <$> employee_grid (month_df first_five_days (2024, 4)) (all_days (2024, 4))
                   "00000007"
  = replicate 5 "E" ++ replicate 25 "A".
Proof. by vm_compute. Qed.

(** ** The summary *)

Section summary.

Lemma valid_row_in_month df month r :
  valid_df df → r ∈ month_df df month →
  row_date r ∈ days_of_month month ∧ 1 ≤ month.2 ≤ 12.
Proof.
  intros Hv [Hym Hr]%list_elem_of_filter.
  unfold valid_df in Hv. rewrite Forall_forall in Hv. specialize (Hv r Hr).
  unfold valid_ts, valid_date in Hv.
  rewrite !andb_True, !Is_true_true, !Z.leb_le in Hv.
  destruct Hv as [[((((Hy & Hm1) & Hm2) & Hd1) & Hd2) _] _].
  unfold YearMonth in Hym. subst month. simpl. split; [|done].
  apply elem_of_days_of_month. by simpl.
Qed.

(** The present days of an employee are the calendar days of the month on
    which the employee has a row. *)
Lemma present_days_eq df month emp_id :
  valid_df df →
  present_days (emp_records (month_df df month) emp_id)
  = days_with_records (emp_records (month_df df month) emp_id) (days_of_month month).
Proof.
  intros Hv. unfold present_days, days_with_records.
  apply nunique_eq_length.
  - apply NoDup_filter, NoDup_days_of_month.
  - intros d. rewrite list_elem_of_filter. split; [tauto|].
    intros Hd. split; [done|].
    apply list_elem_of_fmap in Hd as (r & -> & [_ Hr]%list_elem_of_filter).
    by apply (valid_row_in_month df).
Qed.

Lemma attended_has_row recs d :
  attended (day_cell (in_times recs) (out_times recs) d) → d ∈ row_date <$> recs.
Proof.
  intros Ha. destruct (decide (d ∈ row_date <$> recs)) as [|Hd]; [done|].
  rewrite (day_cell_absent _ _ Hd) in Ha. by destruct Ha.
Qed.

(** The days with status P or E are among the days with a row. *)
Lemma attended_days_le recs days :
  attended_days (day_cell (in_times recs) (out_times recs) <$> days)
  ≤ days_with_records recs days.
Proof.
  unfold attended_days, days_with_records. apply Nat2Z.inj_le.
  induction days as [|d days IH]; [done|].
  rewrite fmap_cons, !filter_cons.
  destruct (decide (attended _)) as [Ha|Ha].
  - rewrite decide_True by (by apply attended_has_row). simpl. lia.
  - case_decide; simpl; lia.
Qed.

Lemma summary_row_fields md total emp :
  Employee_ID (summary_row md total emp) = emp.1
  ∧ Employee_Name (summary_row md total emp) = emp.2
  ∧ Total_Working_Days (summary_row md total emp) = total
  ∧ Present_Days (summary_row md total emp) = present_days (emp_records md emp.1)
  ∧ Absent_Days (summary_row md total emp)
    = total - present_days (emp_records md emp.1)
  ∧ Attendance_Percentage (summary_row md total emp)
    = PyFloat.str (attendance_percentage (present_days (emp_records md emp.1)) total)
      +:+ "%".
Proof. by destruct emp. Qed.

Lemma elem_of_summary df month summary s :
  generate_summary_report df month = Some summary → s ∈ summary →
  ∃ emp, emp ∈ employees (month_df df month)
         ∧ s = summary_row (month_df df month) (total_working_days month) emp.
Proof.
  unfold generate_summary_report.
  destruct (month_df df month) as [|r md] eqn:E; [done|]. intros [= <-].
  intros (emp & -> & Hemp)%list_elem_of_fmap. by exists emp.
Qed.

End summary.

(** C1, as the code has it.  The present days of a summary row are the
    calendar days of the month on which the employee has at least one row,
    whatever its label; the days of the grid with status P or E are among
    them, so their number is at most the present days. *)
Theorem present_days_counts_days_with_rows df month summary :
  valid_df df →
  generate_summary_report df month = Some summary →
  Forall (λ s,
            Present_Days s
            = days_with_records (emp_records (month_df df month) (Employee_ID s))
                (days_of_month month)
            ∧ attended_days
                (employee_grid (month_df df month) (all_days month) (Employee_ID s))
              ≤ Present_Days s)
    summary.
Proof.
  intros Hv Hs. apply Forall_forall. intros s Hin.
  destruct (elem_of_summary _ _ _ _ Hs Hin) as (emp & Hemp & ->).
  destruct (summary_row_fields (month_df df month) (total_working_days month) emp)
    as (-> & _ & _ & -> & _).
  rewrite present_days_eq by done. split; [done|].
  apply elem_of_employees, list_elem_of_fmap in Hemp as (r & _ & Hr).
  destruct (valid_row_in_month _ _ _ Hv Hr) as [_ Hm].
  destruct month as [y m]. rewrite all_days_eq by done.
  apply attended_days_le.
Qed.

Lemma present_days_counts_days_with_rows_witness :
  Forall (λ s,
            Present_Days s
            = days_with_records
                (emp_records (month_df several_punches (2024, 4)) (Employee_ID s))
                (days_of_month (2024, 4))
            ∧ attended_days
                (employee_grid (month_df several_punches (2024, 4))
                   (all_days (2024, 4)) (Employee_ID s))
              ≤ Present_Days s)
    [mkSummaryRow "00000007" "Asha" 30 1 29 "3.33%"].
Proof.
  apply (present_days_counts_days_with_rows several_punches (2024, 4)).
  - repeat constructor.
  - by vm_compute.
Defined.

(** C1, as stated, fails: a single punch whose label holds no keyword leaves
    every day of the grid absent, and the summary counts one present day. *)
Lemma unlabelled_day_counts_as_present :
  generate_summary_report unlabelled_punch (2024, 4)
  = Some [mkSummaryRow "00000003" "Zed" 30 1 29 "3.33%"]
  ∧ attended_days
      (employee_grid (month_df unlabelled_punch (2024, 4)) (all_days (2024, 4))
         "00000003") = 0.
Proof. by vm_compute. Qed.

(** ** Employees with several spellings of their name *)

(** C10.  The employees of a month are the distinct (id, name) pairs of its
    rows, sorted by id and then by name.  When an id occurs under two names,
    both pairs are employees of the month.  The monthly report is made of
    the blocks of the employees, in that order, and the summary of their
    rows; the block and the summary row of a pair show the pair's name, and
    their content is computed from all rows of the month that carry the id,
    whatever name they carry.  So the two blocks (and the two summary rows)
    of the id are the same apart from the displayed name. *)
Theorem same_id_two_names df month emp_id name1 name2 :
  (emp_id, name1) ∈ id_name <$> month_df df month →
  (emp_id, name2) ∈ id_name <$> month_df df month →
  name1 ≠ name2 →
  Sorted emp_le (employees (month_df df month))
  ∧ NoDup (employees (month_df df month))
  ∧ (∀ emp, emp ∈ employees (month_df df month) ↔ emp ∈ id_name <$> month_df df month)
  ∧ (∀ emp, emp ∈ employees (month_df df month) ↔
            ∃ r, r ∈ df ∧ YearMonth r = month ∧ emp = (EmpID r, EmployeeName r))
  ∧ (emp_id, name1) ∈ employees (month_df df month)
  ∧ (emp_id, name2) ∈ employees (month_df df month)
  ∧ generate_monthly_report df month
    = Some (employees (month_df df month)
              ≫= (λ emp, shown_block df month emp.1 emp.2))
  ∧ generate_summary_report df month
    = Some ((λ emp, shown_summary df month emp.1 emp.2)
              <$> employees (month_df df month))
  ∧ (∃ report summary,
       generate_monthly_report df month = Some report
       ∧ generate_summary_report df month = Some summary
       ∧ report = employees (month_df df month)
                    ≫= employee_rows (month_df df month) (all_days month)
       ∧ employee_rows (month_df df month) (all_days month) (emp_id, name1) ⊆ report
       ∧ employee_rows (month_df df month) (all_days month) (emp_id, name2) ⊆ report
       ∧ summary_row (month_df df month) (total_working_days month) (emp_id, name1)
         ∈ summary
       ∧ summary_row (month_df df month) (total_working_days month) (emp_id, name2)
         ∈ summary)
  ∧ employee_rows (month_df df month) (all_days month) (emp_id, name1)
    = shown_block df month emp_id name1
  ∧ employee_rows (month_df df month) (all_days month) (emp_id, name2)
    = shown_block df month emp_id name2
  ∧ tail (employee_rows (month_df df month) (all_days month) (emp_id, name1))
    = tail (employee_rows (month_df df month) (all_days month) (emp_id, name2))
  ∧ Days <$> employee_rows (month_df df month) (all_days month) (emp_id, name1)
    = Days <$> employee_rows (month_df df month) (all_days month) (emp_id, name2)
  ∧ summary_row (month_df df month) (total_working_days month) (emp_id, name1)
    = shown_summary df month emp_id name1
  ∧ summary_row (month_df df month) (total_working_days month) (emp_id, name2)
    = shown_summary df month emp_id name2
  ∧ (∃ present absent percentage,
       summary_row (month_df df month) (total_working_days month) (emp_id, name1)
       = mkSummaryRow emp_id name1 (total_working_days month) present absent percentage
       ∧ summary_row (month_df df month) (total_working_days month) (emp_id, name2)
         = mkSummaryRow emp_id name2 (total_working_days month) present absent
             percentage).
Proof.
  intros H1 H2 Hne.
  assert (Hne' : month_df df month ≠ []).
  { intros He. rewrite He in H1. by apply elem_of_nil in H1. }
  assert (Hr : generate_monthly_report df month
               = Some (employees (month_df df month)
                         ≫= employee_rows (month_df df month) (all_days month))).
  { unfold generate_monthly_report. by destruct (month_df df month). }
  assert (Hs : generate_summary_report df month
               = Some (summary_row (month_df df month) (total_working_days month)
                         <$> employees (month_df df month))).
  { unfold generate_summary_report. by destruct (month_df df month). }
  split_and!.
  - apply Sorted_employees.
  - apply NoDup_employees.
  - apply elem_of_employees.
  - intros emp. rewrite elem_of_employees, list_elem_of_fmap. unfold month_df. split.
    + intros (r & -> & [? ?]%list_elem_of_filter). by exists r.
    + intros (r & ? & ? & ->). exists r. by rewrite list_elem_of_filter.
  - by apply elem_of_employees.
  - by apply elem_of_employees.
  - rewrite Hr. f_equal. apply list_bind_ext; [|done].
    intros [id name]. apply employee_rows_shown.
  - rewrite Hs. f_equal. apply list_fmap_ext. intros i [id name] _.
    apply summary_row_shown.
  - apply elem_of_employees in H1, H2.
    eexists _, _. split_and!; [exact Hr|exact Hs|done|..].
    + intros row Hrow. apply list_elem_of_bind. by exists (emp_id, name1).
    + intros row Hrow. apply list_elem_of_bind. by exists (emp_id, name2).
    + apply list_elem_of_fmap. by exists (emp_id, name1).
    + apply list_elem_of_fmap. by exists (emp_id, name2).
  - apply employee_rows_shown.
  - apply employee_rows_shown.
  - done.
  - done.
  - apply summary_row_shown.
  - apply summary_row_shown.
  - by eexists _, _, _.
Qed.

Lemma same_id_two_names_witness :
  generate_monthly_report two_spellings (2024, 4)
  = Some (employees (month_df two_spellings (2024, 4))
            ≫= (λ emp, shown_block two_spellings (2024, 4) emp.1 emp.2)).
Proof.
  destruct (same_id_two_names two_spellings (2024, 4) "00000007" "Asha" "Asha B")
    as (_ & _ & _ & _ & _ & _ & H & _).
  - vm_compute. by left.
  - vm_compute. by right; left.
  - done.
  - exact H.
Defined.

(** The sample, where the id has an IN punch under one name and an OUT punch
    under the other: the two blocks both show the IN at 09:00 and the OUT at
    17:00 on the first day, with status P. *)
Lemma two_spellings_report :
  (λ row, (Employee_Info row, head (Days row)))
    <$> default [] (generate_monthly_report two_spellings (2024, 4))
  = [ ("00000007 - Asha", Some ""); ("In-Time", Some "09:00");
      ("Out-Time", Some "17:00"); ("Status", Some "P"); ("Date", Some "01-04-2024");
      ("", Some "");
      ("00000007 - Asha B", Some ""); ("In-Time", Some "09:00");
      ("Out-Time", Some "17:00"); ("Status", Some "P"); ("Date", Some "01-04-2024");
      ("", Some "") ].
Proof. by vm_compute. Qed.

(** The report of the sample: two blocks for the one id, the same apart from
    the header. *)
Lemma two_spellings_summary :
  generate_summary_report two_spellings (2024, 4)
  = Some [ mkSummaryRow "00000007" "Asha" 30 1 29 "3.33%";
           mkSummaryRow "00000007" "Asha B" 30 1 29 "3.33%" ].
Proof. by vm_compute. Qed.

(** ** The run over the selected months *)

Section run.

Lemma process_month_app df output_dir written month :
  process_month df output_dir written month
  = written ++ process_month df output_dir [] month.
Proof.
  unfold process_month.
  destruct (generate_monthly_report df month); [|by rewrite app_nil_r].
  destruct (generate_summary_report df month); simpl; [|done].
  by rewrite <-app_assoc.
Qed.

Lemma foldl_process_month df output_dir written months :
  foldl (process_month df output_dir) written months
  = written ++ (months ≫= process_month df output_dir []).
Proof.
  revert written. induction months as [|m months IH]; intros written; simpl.
  - by rewrite app_nil_r.
  - rewrite IH, process_month_app. by rewrite <-app_assoc.
Qed.

(** What a run writes is what each month writes on its own, month after
    month. *)
Lemma generate_reports_bind df output_dir selected_months :
  generate_reports df output_dir selected_months
  = selected_months ≫= process_month df output_dir [].
Proof.
  unfold generate_reports. destruct selected_months as [|m months]; [done|].
  by rewrite foldl_process_month.
Qed.

Lemma empty_month_no_report df month :
  month_df df month = [] → generate_monthly_report df month = None.
Proof. unfold generate_monthly_report. by intros ->. Qed.

End run.

(** C8.  For a month without any row the monthly report generator returns no
    report, and the run goes on: what it writes for a selection containing
    such a month is what it writes for the months before it followed by what
    it writes for the months after it, the same as without that month. *)
Theorem empty_month_is_skipped df output_dir before month after :
  month_df df month = [] →
  generate_monthly_report df month = None
  ∧ generate_reports df output_dir (before ++ month :: after)
    = generate_reports df output_dir before ++ generate_reports df output_dir after
  ∧ generate_reports df output_dir (before ++ month :: after)
    = generate_reports df output_dir (before ++ after).
Proof.
  intros He. pose proof (empty_month_no_report _ _ He) as Hn.
  assert (Hp : process_month df output_dir [] month = [])
    by (unfold process_month; by rewrite Hn).
  rewrite !generate_reports_bind, !bind_app, bind_cons, Hp. done.
Qed.

Lemma empty_month_is_skipped_witness :
  generate_reports several_punches "out" ([(2024, 4)] ++ (2024, 3) :: [(2023, 12)])
  = generate_reports several_punches "out" ([(2024, 4)] ++ [(2023, 12)]).
Proof.
  destruct (empty_month_is_skipped several_punches "out" [(2024, 4)] (2024, 3)
              [(2023, 12)]) as (_ & _ & H); [by vm_compute|exact H].
Defined.

(** ** The percentage *)

Section percentage.

(** Checked by evaluation of the float operations, for every month length
    and every count of present days. *)
Lemma percentage_table :
  Forall (λ total, Forall (percentage_check total) (seqZ 0 (total + 1))) (seqZ 1 31).
Proof. apply (bool_decide_unpack _). by vm_compute. Qed.

Lemma percentage_string present total :
  1 ≤ total ≤ 31 → 0 ≤ present ≤ total →
  PyFloat.str (attendance_percentage present total)
  = shortest_decimal (percentage_hundredths present total).
Proof.
  intros Ht Hp. pose proof percentage_table as H.
  rewrite Forall_seqZ in H. specialize (H total ltac:(lia)).
  rewrite Forall_seqZ in H. apply H. lia.
Qed.

Lemma round_half_even_nearest num den :
  0 < den → 2 * Z.abs (PyFloat.round_half_even num den * den - num) ≤ den.
Proof.
  intros Hd. unfold PyFloat.round_half_even.
  destruct (Z.ltb_spec (2 * (num mod den)) den);
    [|destruct (Z.ltb_spec den (2 * (num mod den))); [|destruct (Z.even _)]];
    div_lia.
Qed.

Lemma days_with_records_bounds recs days :
  0 ≤ days_with_records recs days ≤ Z.of_nat (length days).
Proof.
  unfold days_with_records.
  pose proof (length_filter (λ d, d ∈ row_date <$> recs) days). lia.
Qed.

End percentage.

(** C6, as the code has it.  In every summary row the total is the number of
    days of the month, the absent days are the total minus the present days,
    and the percentage is [100 * present / total] rounded to the nearest
    hundredth, written as the shortest decimal of that value followed by a
    percent sign: two digits after the point, or one when the second would be
    a zero.  22 present days of 30 give "73.33%". *)
Theorem attendance_percentage_string df month summary :
  valid_df df →
  generate_summary_report df month = Some summary →
  Forall (λ s,
            Total_Working_Days s = days_in_month month.1 month.2
            ∧ 0 ≤ Present_Days s ≤ Total_Working_Days s
            ∧ Absent_Days s = Total_Working_Days s - Present_Days s
            ∧ 2 * Z.abs (percentage_hundredths (Present_Days s) (Total_Working_Days s)
                         * Total_Working_Days s - 10000 * Present_Days s)
              ≤ Total_Working_Days s
            ∧ Attendance_Percentage s
              = shortest_decimal
                  (percentage_hundredths (Present_Days s) (Total_Working_Days s))
                +:+ "%")
    summary
  ∧ PyFloat.str (attendance_percentage 22 30) +:+ "%" = "73.33%".
Proof.
  intros Hv Hs. split; [|by vm_compute].
  apply Forall_forall. intros s Hin.
  destruct (elem_of_summary _ _ _ _ Hs Hin) as (emp & Hemp & ->).
  destruct (summary_row_fields (month_df df month) (total_working_days month) emp)
    as (_ & _ & -> & -> & -> & ->).
  apply elem_of_employees, list_elem_of_fmap in Hemp as (r & _ & Hr).
  destruct (valid_row_in_month _ _ _ Hv Hr) as [_ Hm].
  rewrite present_days_eq by done.
  pose proof (days_with_records_bounds (emp_records (month_df df month) emp.1)
                (days_of_month month)) as Hb.
  rewrite length_days_of_month in Hb.
  destruct month as [y m]. simpl in *.
  rewrite total_working_days_eq by done.
  pose proof (days_in_month_bounds y m) as Hd.
  split_and!; try done; try lia.
  - apply round_half_even_nearest. lia.
  - f_equal. apply percentage_string; lia.
Qed.

Lemma attendance_percentage_string_witness :
  Forall (λ s,
            Total_Working_Days s = days_in_month 2024 4
            ∧ 0 ≤ Present_Days s ≤ Total_Working_Days s
            ∧ Absent_Days s = Total_Working_Days s - Present_Days s
            ∧ 2 * Z.abs (percentage_hundredths (Present_Days s) (Total_Working_Days s)
                         * Total_Working_Days s - 10000 * Present_Days s)
              ≤ Total_Working_Days s
            ∧ Attendance_Percentage s
              = shortest_decimal
                  (percentage_hundredths (Present_Days s) (Total_Working_Days s))
                +:+ "%")
    [mkSummaryRow "00000007" "Asha" 30 5 25 "16.67%"].
Proof.
  destruct (attendance_percentage_string first_five_days (2024, 4)
              [mkSummaryRow "00000007" "Asha" 30 5 25 "16.67%"]) as [H _].
  - repeat constructor.
  - by vm_compute.
  - exact H.
Defined.

(** C6, as stated, fails: fifteen present days of thirty are written
    "50.0%", with one digit after the point. *)
Lemma half_month_percentage :
  generate_summary_report half_month (2024, 4)
  = Some [mkSummaryRow "00000007" "Asha" 30 15 15 "50.0%"]
  ∧ "50.0%" ≠ "50.00%".
Proof. split; [by vm_compute|done]. Qed.

(** * Further properties *)

(** ** Reports and summaries together *)

Section reports.








End reports.



(** ** Independence of the other rows *)



(** ** The status away from midnight *)

Section status_general.




End status_general.



(** ** The available months *)

#[local] Instance month_str_le_total : Total month_str_le.
Proof. intros a b. unfold month_str_le. apply total, _. Qed.

#[local] Instance month_str_le_trans : Transitive month_str_le.
Proof. intros a b c. unfold month_str_le. apply transitivity. Qed.

Section months.











End months.




(** ** The month key and its string *)

Section month_key.





End month_key.


